(** * UsdTransform3d: the UFE transform interface over a USD prim

    A shallow embedding of [lib/mayaUsd/ufe/UsdTransform3d.cpp].  The class is
    glue between two libraries it does not own: the scene description engine
    (prims, attributes, time codes, the transform cache) and the host's scene
    abstraction (paths, vectors, matrices, undoable commands).  The engine's
    stage is modelled as a finite map, the host's value types as records, and
    every member function of the class as a function over them.  A member that
    reads the stage takes it as an argument; a member that writes to it returns
    the new stage. *)

From Stdlib Require Import ZArith String Floats.
From stdpp Require Import base option gmap strings.

Open Scope string_scope.

(** ** Numbers *)

(** A C++ [double] is an IEEE binary64 value. *)
Definition double : Set := PrimFloat.float.

(** A C++ [float], kept as its sign, mantissa and exponent. *)
Definition Cfloat : Set := SpecFloat.spec_float.

(** The implicit conversion of [x = v[0]] from [float] to [double]. *)
Definition float_to_double (f : Cfloat) : double := SF2Prim f.

(** ** Pointers and outcomes *)

(** A [std::shared_ptr<A>]: either null or an object. *)
Abbreviation Ptr := option (only parsing).
Abbreviation nullptr := None (only parsing).

Definition make_shared {A : Type} (a : A) : Ptr A := Some a.

(** What a call can end in.  Dereferencing a null pointer and touching an
    expired prim handle are kept apart from a C++ exception. *)
Inductive outcome (A : Type) : Type :=
| Ok (a : A)
| NullDeref
| InvalidPrim
| Throw (what : string).

Arguments Ok {A} a.
Arguments NullDeref {A}.
Arguments InvalidPrim {A}.
Arguments Throw {A} what.

#[global] Instance outcome_ret : MRet outcome := fun _ a => Ok a.

#[global] Instance outcome_bind : MBind outcome := fun _ _ k m =>
  match m with
  | Ok a => k a
  | NullDeref => NullDeref
  | InvalidPrim => InvalidPrim
  | Throw what => Throw what
  end.

(** [p->...] on a shared pointer. *)
Definition deref {A : Type} (p : Ptr A) : outcome A :=
  match p with
  | Some a => Ok a
  | nullptr => NullDeref
  end.

Definition is_ok {A : Type} (r : outcome A) : bool :=
  match r with Ok _ => true | _ => false end.

(** ** Fixed-size arrays *)

(** [std::array<A,4>] and [A m[4]]. *)
Record array4 (A : Type) : Type := Array4 { a0 : A; a1 : A; a2 : A; a3 : A }.

Arguments Array4 {A} a0 a1 a2 a3.
Arguments a0 {A} _.
Arguments a1 {A} _.
Arguments a2 {A} _.
Arguments a3 {A} _.

(** Indexing; the source only uses the indices 0 to 3. *)
Definition at4 {A : Type} (a : array4 A) (i : nat) : A :=
  match i with
  | 0 => a0 a
  | 1 => a1 a
  | 2 => a2 a
  | _ => a3 a
  end.

(** [m[i][j]] on a [double[4][4]]. *)
Definition elem {A : Type} (m : array4 (array4 A)) (i j : nat) : A := at4 (at4 m i) j.

(** ** The host's scene abstraction (UFE) *)

Module Ufe.

(** [Ufe::Path]: the components of a scene path. *)
Definition Path : Set := list string.

(** [Ufe::Vector3d]. *)
Record Vector3d : Set := mkVector3d { x : double; y : double; z : double }.

Arguments mkVector3d (x y z)%_float.

(** [Ufe::Matrix4d]: a struct with the single member
    [std::array<std::array<double,4>,4> matrix]. *)
Record Matrix4d : Set := mkMatrix4d { matrix : array4 (array4 double) }.

End Ufe.

(** ** The undoable commands

    The command classes [UsdTranslateUndoableCommand], [UsdRotateUndoableCommand],
    [UsdScaleUndoableCommand] and [UsdRotatePivotTranslateUndoableCommand] are
    declared in headers of their own.  A command object is represented by the
    class it was made from and the arguments its factory received; the three
    inductive types below are the host's three command interfaces with the
    classes that derive from each. *)

Inductive TranslateUndoableCommand : Set :=
| UsdTranslateUndoableCommand_obj (path : Ufe.Path) (x y z : double)
| UsdRotatePivotTranslateUndoableCommand_obj (path : Ufe.Path).

Inductive RotateUndoableCommand : Set :=
| UsdRotateUndoableCommand_obj (path : Ufe.Path) (x y z : double).

Inductive ScaleUndoableCommand : Set :=
| UsdScaleUndoableCommand_obj (path : Ufe.Path) (x y z : double).

Arguments UsdTranslateUndoableCommand_obj path (x y z)%_float.
Arguments UsdRotateUndoableCommand_obj path (x y z)%_float.
Arguments UsdScaleUndoableCommand_obj path (x y z)%_float.

(** [Ufe::SetMatrixUndoableCommand]: no class of this repository derives from
    it; a command of the interface would carry the path and the matrix. *)
Inductive SetMatrixUndoableCommand : Set :=
| SetMatrixUndoableCommand_obj (path : Ufe.Path) (m : Ufe.Matrix4d).

Module UsdTranslateUndoableCommand.
(** Modelled from the spec: [UsdTranslateUndoableCommand::create] is defined
    in UsdTranslateUndoableCommand.cpp, which is not among the sources.  It is
    taken to support the host's undo/redo command model by handing back a
    freshly allocated command for the path and the three values. *)
Definition create (path : Ufe.Path) (x y z : double) : outcome (Ptr TranslateUndoableCommand) :=
  Ok (make_shared (UsdTranslateUndoableCommand_obj path x y z)).

Arguments create path (x y z)%_float.
End UsdTranslateUndoableCommand.

Module UsdRotateUndoableCommand.
(** Modelled from the spec: [UsdRotateUndoableCommand::create] is defined in
    UsdRotateUndoableCommand.cpp, which is not among the sources; it is taken
    to hand back a freshly allocated command for the path and the values. *)
Definition create (path : Ufe.Path) (x y z : double) : outcome (Ptr RotateUndoableCommand) :=
  Ok (make_shared (UsdRotateUndoableCommand_obj path x y z)).

Arguments create path (x y z)%_float.
End UsdRotateUndoableCommand.

Module UsdScaleUndoableCommand.
(** Modelled from the spec: [UsdScaleUndoableCommand::create] is defined in
    UsdScaleUndoableCommand.cpp, which is not among the sources; it is taken
    to hand back a freshly allocated command for the path and the values. *)
Definition create (path : Ufe.Path) (x y z : double) : outcome (Ptr ScaleUndoableCommand) :=
  Ok (make_shared (UsdScaleUndoableCommand_obj path x y z)).

Arguments create path (x y z)%_float.
End UsdScaleUndoableCommand.

Module UsdRotatePivotTranslateUndoableCommand.
(** Modelled from the spec: [UsdRotatePivotTranslateUndoableCommand::create]
    is defined in UsdRotatePivotTranslateUndoableCommand.cpp, which is not
    among the sources; it is taken to hand back a freshly allocated command
    for the path. *)
Definition create (path : Ufe.Path) : outcome (Ptr TranslateUndoableCommand) :=
  Ok (make_shared (UsdRotatePivotTranslateUndoableCommand_obj path)).
End UsdRotatePivotTranslateUndoableCommand.

(** ** The scene description engine (USD) *)

(** [TfToken] and [SdfPath] are used as names. *)
Abbreviation TfToken := string (only parsing).
Abbreviation SdfPath := string (only parsing).

(** [GfVec3d] and [GfVec3f], with [v[0]], [v[1]], [v[2]]. *)
Record GfVec3d : Set := mkGfVec3d { d0 : double; d1 : double; d2 : double }.
Record GfVec3f : Set := mkGfVec3f { f0 : Cfloat; f1 : Cfloat; f2 : Cfloat }.

Arguments mkGfVec3d (d0 d1 d2)%_float.

(** [GfMatrix4d]; [Get] copies the elements into a [double[4][4]]. *)
Record GfMatrix4d : Set := mkGfMatrix4d { Get : array4 (array4 double) }.

(** The value an attribute holds: a [double3], a [float3], or something of
    another type. *)
Inductive VtValue : Set :=
| VtVec3d (v : GfVec3d)
| VtVec3f (v : GfVec3f)
| VtOther.

(** [UsdPrim]: a handle on the prim at a path of the stage. *)
Record UsdPrim : Set := mkUsdPrim { primPath : SdfPath }.

(** [UsdAttribute]: a handle on an attribute of a prim. *)
Record UsdAttribute : Set := mkUsdAttribute { attrPrim : UsdPrim; attrName : TfToken }.

(** What an attribute resolves to at each time: a value or nothing ("an
    attribute can be created, but have no value").  [UsdTimeCode] is opaque
    to the class, which obtains a time from [getTime] and hands it to the
    engine; it is a parameter throughout. *)
Abbreviation AttributeData UsdTimeCode := (UsdTimeCode -> option VtValue) (only parsing).

(** A stage: the attributes of each of its prims, by name. *)
Abbreviation Stage UsdTimeCode :=
  (gmap SdfPath (gmap TfToken (AttributeData UsdTimeCode))) (only parsing).

Section Stage.

Context {UsdTimeCode : Type}.

Local Abbreviation Stage := (Stage UsdTimeCode).

(** [prim.HasAttribute(name)]. *)
Definition HasAttribute (stage : Stage) (prim : UsdPrim) (name : TfToken) : outcome bool :=
  match stage !! primPath prim with
  | Some attrs => Ok (bool_decide (is_Some (attrs !! name)))
  | None => InvalidPrim
  end.

(** [prim.GetAttribute(name)]: a handle, valid or not. *)
Definition GetAttribute (prim : UsdPrim) (name : TfToken) : UsdAttribute :=
  mkUsdAttribute prim name.

(** The value [attr] resolves to at [time], if any. *)
Definition resolve (stage : Stage) (attr : UsdAttribute) (time : UsdTimeCode) : outcome (option VtValue) :=
  match stage !! primPath (attrPrim attr) with
  | Some attrs => Ok (a ← attrs !! attrName attr; a time)
  | None => InvalidPrim
  end.

(** [attr.Get<GfVec3d>(&v, time)]: [Some v] when it returns true and
    writes [v], [None] when it returns false (no value, or a value of
    another type). *)
Definition Get_GfVec3d (stage : Stage) (attr : UsdAttribute) (time : UsdTimeCode) : outcome (option GfVec3d) :=
  val ← resolve stage attr time;
  Ok (match val with Some (VtVec3d v) => Some v | _ => None end).

(** [attr.Get<GfVec3f>(&v, time)]. *)
Definition Get_GfVec3f (stage : Stage) (attr : UsdAttribute) (time : UsdTimeCode) : outcome (option GfVec3f) :=
  val ← resolve stage attr time;
  Ok (match val with Some (VtVec3f v) => Some v | _ => None end).

(** The prim is on the stage, and its attribute [name] is either missing or
    has no value at [time]. *)
Definition lacks_value (stage : Stage) (prim : UsdPrim) (name : TfToken) (time : UsdTimeCode) : Prop :=
  exists attrs, stage !! primPath prim = Some attrs /\
    (attrs !! name = None \/ exists a, attrs !! name = Some a /\ a time = None).

End Stage.

(** ** What the class calls into *)

Section Interfaces.

Context {UsdTimeCode : Type}.

(** [mayaUsd/ufe/Utils.h]: [getTime(path)], the time of the stage a path
    belongs to.  Its definition is not among the sources and the class only
    forwards its result, so it is an operation of an interface. *)
Class Utils : Type := {
  getTime : Ufe.Path -> UsdTimeCode
}.

(** [private/Utils.h]: the four operations that author a transform op on a
    prim.  Their definitions are not among the sources. *)
Class PrivateUtils : Type := {
  translateOp : UsdPrim -> Ufe.Path -> double -> double -> double ->
                Stage UsdTimeCode -> outcome (Stage UsdTimeCode);
  rotateOp : UsdPrim -> Ufe.Path -> double -> double -> double ->
             Stage UsdTimeCode -> outcome (Stage UsdTimeCode);
  scaleOp : UsdPrim -> Ufe.Path -> double -> double -> double ->
            Stage UsdTimeCode -> outcome (Stage UsdTimeCode);
  rotatePivotTranslateOp : UsdPrim -> Ufe.Path -> double -> double -> double ->
                           Stage UsdTimeCode -> outcome (Stage UsdTimeCode)
}.

(** [UsdGeomXformCache], the engine's transform cache: constructed for a
    time, it is asked for the two world transforms of a prim. *)
Class UsdGeomXformCache : Type := {
  GetLocalToWorldTransform : Stage UsdTimeCode -> UsdTimeCode -> UsdPrim -> GfMatrix4d;
  GetParentToWorldTransform : Stage UsdTimeCode -> UsdTimeCode -> UsdPrim -> GfMatrix4d
}.

End Interfaces.

Arguments Utils : clear implicits.
Arguments PrivateUtils : clear implicits.
Arguments UsdGeomXformCache : clear implicits.

Section TranslateOp.

Context {UsdTimeCode : Type} `{!EqDecision UsdTimeCode} {U : Utils UsdTimeCode}.

(** Modelled from the spec: [translateOp] of private/Utils.h is defined in
    private/Utils.cpp, which is not among the sources.  In the words of the
    claim on [translate], it authors the prim's "xformOp:translate" attribute
    for the time code of the item's path: the attribute is created when it is
    missing, from then on it holds the [GfVec3d] (x, y, z) at [getTime(path)],
    and what it resolves to at other times, the other attributes and the
    other prims stay as they were. *)
Definition translateOp_authoring (prim : UsdPrim) (path : Ufe.Path) (x y z : double)
    (stage : Stage UsdTimeCode) : outcome (Stage UsdTimeCode) :=
  let xlate : TfToken := "xformOp:translate" in
  match stage !! primPath prim with
  | Some attrs =>
      let before : AttributeData UsdTimeCode := default (fun _ => None) (attrs !! xlate) in
      let after : AttributeData UsdTimeCode := fun time =>
        if decide (time = getTime path) then Some (VtVec3d (mkGfVec3d x y z)) else before time in
      Ok (<[primPath prim := <[xlate := after]> attrs]> stage)
  | None => InvalidPrim
  end.

End TranslateOp.

(** [UsdSceneItem]: the scene item of a prim, with its [path()] and [prim()]. *)
Module UsdSceneItem.
Record t : Set := mk { path : Ufe.Path; prim : UsdPrim }.
End UsdSceneItem.

(** Conditional compilation: a member under [#if cond] is part of the
    translation unit only when [cond] holds. *)
Definition ifdef {A : Type} (cond : bool) (member : A) : option A :=
  if cond then Some member else None.

(** ** The class *)

Module UsdTransform3d.

(** The object: its one data member. *)
Record t : Set := mk { fItem : Ptr UsdSceneItem.t }.

Section Members.

Context {UsdTimeCode : Type}.
Context {U : Utils UsdTimeCode} {P : PrivateUtils UsdTimeCode} {X : UsdGeomXformCache UsdTimeCode}.

Local Abbreviation Stage := (Stage UsdTimeCode).

(** *** The anonymous namespace *)

Definition convertFromUsd (matrix : GfMatrix4d) : Ufe.Matrix4d :=
  let m := Get matrix in
  Ufe.mkMatrix4d
    (Array4 (Array4 (elem m 0 0) (elem m 0 1) (elem m 0 2) (elem m 0 3))
            (Array4 (elem m 1 0) (elem m 1 1) (elem m 1 2) (elem m 1 3))
            (Array4 (elem m 2 0) (elem m 2 1) (elem m 2 2) (elem m 2 3))
            (Array4 (elem m 3 0) (elem m 3 1) (elem m 3 2) (elem m 3 3))).

Definition primToUfeXform (stage : Stage) (prim : UsdPrim) (time : UsdTimeCode) : Ufe.Matrix4d :=
  let usdMatrix := GetLocalToWorldTransform stage time prim in
  let xform := convertFromUsd usdMatrix in
  xform.

Definition primToUfeExclusiveXform (stage : Stage) (prim : UsdPrim) (time : UsdTimeCode) : Ufe.Matrix4d :=
  let usdMatrix := GetParentToWorldTransform stage time prim in
  let xform := convertFromUsd usdMatrix in
  xform.

(** *** Construction *)

(** [UsdTransform3d()]: [fItem] is default-initialised, a null pointer. *)
Definition new : t := mk nullptr.

(** [UsdTransform3d(item)]. *)
Definition new_with (item : Ptr UsdSceneItem.t) : t := mk item.

(** [create()]. *)
Definition create_default : Ptr t := make_shared new.

(** [create(item)]. *)
Definition create (item : Ptr UsdSceneItem.t) : Ptr t := make_shared (new_with item).

Definition setItem (self : t) (item : Ptr UsdSceneItem.t) : t := mk item.

(** *** Ufe::Transform3d overrides *)

Definition path (self : t) : outcome Ufe.Path :=
  item ← deref (fItem self);
  Ok (UsdSceneItem.path item).

Definition sceneItem (self : t) : outcome (Ptr UsdSceneItem.t) :=
  Ok (fItem self).

(** [translateCmd(double x, double y, double z)]. *)
Definition translateCmd_xyz (self : t) (x y z : double) : outcome (Ptr TranslateUndoableCommand) :=
  p ← path self;
  UsdTranslateUndoableCommand.create p x y z.

Definition translate (self : t) (x y z : double) (stage : Stage) : outcome Stage :=
  item ← deref (fItem self);
  item' ← deref (fItem self);
  translateOp (UsdSceneItem.prim item) (UsdSceneItem.path item') x y z stage.

Definition translation (self : t) (stage : Stage) : outcome Ufe.Vector3d :=
  let xyz0 := (0%float, 0%float, 0%float) in
  let xlate : TfToken := "xformOp:translate" in
  item ← deref (fItem self);
  has ← HasAttribute stage (UsdSceneItem.prim item) xlate;
  '(x, y, z) ←
    (if has : bool then
       item' ← deref (fItem self);
       p ← path self;
       got ← Get_GfVec3d stage (GetAttribute (UsdSceneItem.prim item') xlate) (getTime p);
       Ok (match got with
           | Some v => (d0 v, d1 v, d2 v)
           | None => xyz0
           end)
     else Ok xyz0);
  Ok (Ufe.mkVector3d x y z).

Definition rotation (self : t) (stage : Stage) : outcome Ufe.Vector3d :=
  let xyz0 := (0%float, 0%float, 0%float) in
  let rotXYZ : TfToken := "xformOp:rotateXYZ" in
  item ← deref (fItem self);
  has ← HasAttribute stage (UsdSceneItem.prim item) rotXYZ;
  '(x, y, z) ←
    (if has : bool then
       item' ← deref (fItem self);
       p ← path self;
       got ← Get_GfVec3f stage (GetAttribute (UsdSceneItem.prim item') rotXYZ) (getTime p);
       Ok (match got with
           | Some v => (float_to_double (f0 v), float_to_double (f1 v), float_to_double (f2 v))
           | None => xyz0
           end)
     else Ok xyz0);
  Ok (Ufe.mkVector3d x y z).

(** [scale() const]. *)
Definition scale (self : t) (stage : Stage) : outcome Ufe.Vector3d :=
  let xyz0 := (0%float, 0%float, 0%float) in
  let scaleTok : TfToken := "xformOp:scale" in
  item ← deref (fItem self);
  has ← HasAttribute stage (UsdSceneItem.prim item) scaleTok;
  '(x, y, z) ←
    (if has : bool then
       item' ← deref (fItem self);
       p ← path self;
       got ← Get_GfVec3f stage (GetAttribute (UsdSceneItem.prim item') scaleTok) (getTime p);
       Ok (match got with
           | Some v => (float_to_double (f0 v), float_to_double (f1 v), float_to_double (f2 v))
           | None => xyz0
           end)
     else Ok xyz0);
  Ok (Ufe.mkVector3d x y z).

(** [rotateCmd(double x, double y, double z)]. *)
Definition rotateCmd_xyz (self : t) (x y z : double) : outcome (Ptr RotateUndoableCommand) :=
  p ← path self;
  UsdRotateUndoableCommand.create p x y z.

Definition rotate (self : t) (x y z : double) (stage : Stage) : outcome Stage :=
  item ← deref (fItem self);
  item' ← deref (fItem self);
  rotateOp (UsdSceneItem.prim item) (UsdSceneItem.path item') x y z stage.

(** [scaleCmd(double x, double y, double z)]. *)
Definition scaleCmd_xyz (self : t) (x y z : double) : outcome (Ptr ScaleUndoableCommand) :=
  p ← path self;
  UsdScaleUndoableCommand.create p x y z.

(** [translateCmd()]. *)
Definition translateCmd_void (self : t) : outcome (Ptr TranslateUndoableCommand) :=
  p ← path self;
  UsdTranslateUndoableCommand.create p 0 0 0.

(** [rotateCmd()]. *)
Definition rotateCmd_void (self : t) : outcome (Ptr RotateUndoableCommand) :=
  p ← path self;
  UsdRotateUndoableCommand.create p 0 0 0.

(** [scaleCmd()]. *)
Definition scaleCmd_void (self : t) : outcome (Ptr ScaleUndoableCommand) :=
  p ← path self;
  UsdScaleUndoableCommand.create p 1 1 1.

Definition setMatrixCmd (self : t) (m : Ufe.Matrix4d) : outcome (Ptr SetMatrixUndoableCommand) :=
  Ok nullptr.

(** [Ufe::Matrix4d m; return m;]: the local is never assigned, so what is
    returned is whatever its storage held, here the argument [m]. *)
Definition getMatrix (m : Ufe.Matrix4d) (self : t) : outcome Ufe.Matrix4d :=
  Ok m.

(** [scale(double x, double y, double z)]. *)
Definition scale_xyz (self : t) (x y z : double) (stage : Stage) : outcome Stage :=
  item ← deref (fItem self);
  item' ← deref (fItem self);
  scaleOp (UsdSceneItem.prim item) (UsdSceneItem.path item') x y z stage.

Definition rotatePivotTranslateCmd (self : t) : outcome (Ptr TranslateUndoableCommand) :=
  item ← deref (fItem self);
  UsdRotatePivotTranslateUndoableCommand.create (UsdSceneItem.path item).

Definition rotatePivotTranslate (self : t) (x y z : double) (stage : Stage) : outcome Stage :=
  item ← deref (fItem self);
  p ← path self;
  rotatePivotTranslateOp (UsdSceneItem.prim item) p x y z stage.

Definition rotatePivot (self : t) (stage : Stage) : outcome Ufe.Vector3d :=
  let xyz0 := (0%float, 0%float, 0%float) in
  let xpivot : TfToken := "xformOp:translate:pivot" in
  item ← deref (fItem self);
  has ← HasAttribute stage (UsdSceneItem.prim item) xpivot;
  '(x, y, z) ←
    (if has : bool then
       item' ← deref (fItem self);
       p ← path self;
       got ← Get_GfVec3f stage (GetAttribute (UsdSceneItem.prim item') xpivot) (getTime p);
       Ok (match got with
           | Some v => (float_to_double (f0 v), float_to_double (f1 v), float_to_double (f2 v))
           | None => xyz0
           end)
     else Ok xyz0);
  Ok (Ufe.mkVector3d x y z).

Definition scalePivotTranslateCmd (self : t) : outcome (Ptr TranslateUndoableCommand) :=
  Throw "UsdTransform3d::scalePivotTranslateCmd() not implemented".

Definition scalePivotTranslate (self : t) (x y z : double) (stage : Stage) : outcome Stage :=
  rotatePivotTranslate self x y z stage.

Definition scalePivot (self : t) (stage : Stage) : outcome Ufe.Vector3d :=
  rotatePivot self stage.

Definition segmentInclusiveMatrix (self : t) (stage : Stage) : outcome Ufe.Matrix4d :=
  item ← deref (fItem self);
  p ← path self;
  Ok (primToUfeXform stage (UsdSceneItem.prim item) (getTime p)).

Definition segmentExclusiveMatrix (self : t) (stage : Stage) : outcome Ufe.Matrix4d :=
  item ← deref (fItem self);
  p ← path self;
  Ok (primToUfeExclusiveXform stage (UsdSceneItem.prim item) (getTime p)).

(** *** The translation unit

    Ten of the member functions stand under [#if UFE_PREVIEW_VERSION_NUM]:
    which of them the compiler sees depends on the version of the host's
    interface.  The record lists them in the order of the file. *)

Record TranslationUnit : Type := {
  def_translateCmd_xyz : option (t -> double -> double -> double -> outcome (Ptr TranslateUndoableCommand));
  def_rotation : option (t -> Stage -> outcome Ufe.Vector3d);
  def_scale : option (t -> Stage -> outcome Ufe.Vector3d);
  def_rotateCmd_xyz : option (t -> double -> double -> double -> outcome (Ptr RotateUndoableCommand));
  def_scaleCmd_xyz : option (t -> double -> double -> double -> outcome (Ptr ScaleUndoableCommand));
  def_translateCmd_void : option (t -> outcome (Ptr TranslateUndoableCommand));
  def_rotateCmd_void : option (t -> outcome (Ptr RotateUndoableCommand));
  def_scaleCmd_void : option (t -> outcome (Ptr ScaleUndoableCommand));
  def_setMatrixCmd : option (t -> Ufe.Matrix4d -> outcome (Ptr SetMatrixUndoableCommand));
  def_getMatrix : option (Ufe.Matrix4d -> t -> outcome Ufe.Matrix4d)
}.

Definition translation_unit (UFE_PREVIEW_VERSION_NUM : Z) : TranslationUnit := {|
  (* #if UFE_PREVIEW_VERSION_NUM >= 2013 *)
  def_translateCmd_xyz := ifdef (2013 <=? UFE_PREVIEW_VERSION_NUM)%Z translateCmd_xyz;
  (* #if UFE_PREVIEW_VERSION_NUM >= 2013 *)
  def_rotation := ifdef (2013 <=? UFE_PREVIEW_VERSION_NUM)%Z rotation;
  def_scale := ifdef (2013 <=? UFE_PREVIEW_VERSION_NUM)%Z scale;
  def_rotateCmd_xyz := ifdef (2013 <=? UFE_PREVIEW_VERSION_NUM)%Z rotateCmd_xyz;
  (* #if UFE_PREVIEW_VERSION_NUM >= 2013 *)
  def_scaleCmd_xyz := ifdef (2013 <=? UFE_PREVIEW_VERSION_NUM)%Z scaleCmd_xyz;
  (* #else *)
  def_translateCmd_void := ifdef (negb (2013 <=? UFE_PREVIEW_VERSION_NUM)%Z) translateCmd_void;
  def_rotateCmd_void := ifdef (negb (2013 <=? UFE_PREVIEW_VERSION_NUM)%Z) rotateCmd_void;
  def_scaleCmd_void := ifdef (negb (2013 <=? UFE_PREVIEW_VERSION_NUM)%Z) scaleCmd_void;
  (* #if UFE_PREVIEW_VERSION_NUM >= 2021 *)
  def_setMatrixCmd := ifdef (2021 <=? UFE_PREVIEW_VERSION_NUM)%Z setMatrixCmd;
  def_getMatrix := ifdef (2021 <=? UFE_PREVIEW_VERSION_NUM)%Z getMatrix
|}.

End Members.

End UsdTransform3d.

(** ** A small scene

    One prim, [/cube], under a proxy shape of the host.  Time codes are frame
    numbers and the stage is at frame 24.  The prim has a scale attribute that
    was created without a value, a pivot authored as a [float3], and nothing
    else. *)

Module Demo.

Definition frame : Z := 24.

Definition utils : Utils Z := {| getTime := fun _ => frame |}.

Definition cube : UsdSceneItem.t :=
  UsdSceneItem.mk ["|world|proxyShape"; "/cube"] (mkUsdPrim "/cube").

(** 0.5 as a [float]: mantissa 1, exponent -1. *)
Definition half : Cfloat := S754_finite false 1 (-1).

Definition pivot : AttributeData Z := fun _ => Some (VtVec3f (mkGfVec3f half half half)).

Definition cubeAttrs : gmap TfToken (AttributeData Z) :=
  {[ "xformOp:scale" := (fun _ => None) : AttributeData Z;
     "xformOp:translate:pivot" := pivot ]}.

Definition stage : Stage Z := {[ "/cube" := cubeAttrs ]}.

(** The operations on transform ops: translation as modelled above; the
    other three are stand-ins that leave the stage alone. *)
Definition privateUtils : PrivateUtils Z := {|
  translateOp := translateOp_authoring (U := utils);
  rotateOp := fun _ _ _ _ _ stage => Ok stage;
  scaleOp := fun _ _ _ _ _ stage => Ok stage;
  rotatePivotTranslateOp := fun _ _ _ _ _ stage => Ok stage
|}.

Definition row (a b c d : double) : array4 double := Array4 a b c d.

Arguments row (a b c d)%_float.

(** The proxy shape sits at (1, 2, 3) in the world. *)
Definition proxyToWorld : GfMatrix4d :=
  mkGfMatrix4d (Array4 (row 1 0 0 0) (row 0 1 0 0) (row 0 0 1 0) (row 1 2 3 1)).

(** A transform cache for this scene: the prim has no transform of its own,
    so both of its world transforms are its parent's. *)
Definition xformCache : UsdGeomXformCache Z := {|
  GetLocalToWorldTransform := fun _ _ _ => proxyToWorld;
  GetParentToWorldTransform := fun _ _ _ => proxyToWorld
|}.

(** What the storage of an unassigned [Ufe::Matrix4d] may hold: here, zeros. *)
Definition stale : Ufe.Matrix4d :=
  Ufe.mkMatrix4d (Array4 (row 0 0 0 0) (row 0 0 0 0) (row 0 0 0 0) (row 0 0 0 0)).

(** The transform interface of the cube. *)
Definition transform : UsdTransform3d.t := UsdTransform3d.new_with (Some cube).

(** The same prim before anything was authored on it. *)
Definition bare : Stage Z := {[ "/cube" := ∅ ]}.

End Demo.

(** ** The transform cache, from local transforms

    The engine documents its cache as follows.  [GetLocalTransformation]
    gives the transform authored on a prim itself and tells whether the prim
    resets the transform stack.  The parent-to-world transform of a prim
    leaves the prim's own transform out.  The local-to-world transform
    includes it: it is the local transform times the parent-to-world
    transform, or the local transform alone when the prim resets the
    transform stack (its op order starts with "!resetXformStack!").
    Matrices multiply as [GfMatrix4d] does, rows by columns, each element a
    sum of four products taken from left to right. *)

Definition GfMatrix4d_identity : GfMatrix4d :=
  mkGfMatrix4d (Array4 (Array4 1 0 0 0) (Array4 0 1 0 0) (Array4 0 0 1 0) (Array4 0 0 0 1))%float.

Definition GfMatrix4d_mul (a b : GfMatrix4d) : GfMatrix4d :=
  let entry (i j : nat) : double :=
    (elem (Get a) i 0 * elem (Get b) 0 j + elem (Get a) i 1 * elem (Get b) 1 j
     + elem (Get a) i 2 * elem (Get b) 2 j + elem (Get a) i 3 * elem (Get b) 3 j)%float in
  mkGfMatrix4d
    (Array4 (Array4 (entry 0 0) (entry 0 1) (entry 0 2) (entry 0 3))
            (Array4 (entry 1 0) (entry 1 1) (entry 1 2) (entry 1 3))
            (Array4 (entry 2 0) (entry 2 1) (entry 2 2) (entry 2 3))
            (Array4 (entry 3 0) (entry 3 1) (entry 3 2) (entry 3 3))).

(** A [double] that is finite and not a negative zero. *)
Definition plain_double (x : double) : bool :=
  match Prim2SF x with
  | S754_finite _ _ _ => true
  | S754_zero false => true
  | _ => false
  end.

Definition forall4 {A : Type} (p : A -> bool) (a : array4 A) : bool :=
  p (a0 a) && p (a1 a) && p (a2 a) && p (a3 a).

(** A matrix whose sixteen elements are finite and not negative zeros. *)
Definition plain_matrix (m : GfMatrix4d) : bool :=
  forall4 (forall4 plain_double) (Get m).


Section XformCacheFromLocal.

Context {UsdTimeCode : Type}.



End XformCacheFromLocal.

(** The cube under its proxy shape, with no transform of its own: once as
    an ordinary prim and once as a prim that resets the transform stack. *)
Module LocalIdentity.




(** A parent-to-world matrix with an infinite element and a negative
    zero. *)
Definition unbounded : GfMatrix4d :=
  mkGfMatrix4d (Array4 (Demo.row 1 0 (- 0) 0) (Array4 PrimFloat.infinity 1 0 0)%float
                       (Demo.row 0 0 1 0) (Demo.row 0 0 0 1)).

End LocalIdentity.


(** * Properties of the class *)

Section Verification.

Context {UsdTimeCode : Type}.
Context {U : Utils UsdTimeCode} {P : PrivateUtils UsdTimeCode} {X : UsdGeomXformCache UsdTimeCode}.

Implicit Types (self : UsdTransform3d.t) (item : UsdSceneItem.t).
Implicit Types (stage : Stage UsdTimeCode) (x y z : double).

(** ** Outcomes *)

Lemma bind_Ok {A B : Type} (a : A) (k : A -> outcome B) :
  mbind k (Ok a) = k a.
Proof. reflexivity. Qed.

Lemma bind_NullDeref {A B : Type} (k : A -> outcome B) :
  mbind k NullDeref = NullDeref.
Proof. reflexivity. Qed.

Lemma bind_not_NullDeref {A B : Type} (m : outcome A) (k : A -> outcome B) :
  m <> NullDeref -> (forall a, k a <> NullDeref) -> mbind k m <> NullDeref.
Proof. intros Hm Hk. destruct m; cbn; [apply Hk | done..]. Qed.

Lemma deref_Some {A : Type} (p : Ptr A) (a : A) : p = Some a -> deref p = Ok a.
Proof. by intros ->. Qed.

Lemma deref_null {A : Type} (p : Ptr A) : p = nullptr -> deref p = NullDeref.
Proof. by intros ->. Qed.

Lemma path_Some self item :
  UsdTransform3d.fItem self = Some item -> UsdTransform3d.path self = Ok (UsdSceneItem.path item).
Proof. intros H. unfold UsdTransform3d.path. by rewrite (deref_Some _ _ H). Qed.

Lemma path_null self :
  UsdTransform3d.fItem self = nullptr -> UsdTransform3d.path self = NullDeref.
Proof. intros H. unfold UsdTransform3d.path. by rewrite (deref_null _ H). Qed.

(** Opens a member on an object whose item is known. *)
Ltac with_item H :=
  repeat first
    [ rewrite (path_Some _ _ H)
    | rewrite (deref_Some _ _ H)
    | rewrite bind_Ok ].

(** Opens a member on an object without an item. *)
Ltac without_item H :=
  repeat first
    [ rewrite (path_null _ H)
    | rewrite (deref_null _ H)
    | rewrite bind_NullDeref ].

(** ** The engine never reports a null dereference *)

Lemma HasAttribute_not_NullDeref stage prim name :
  HasAttribute stage prim name <> NullDeref.
Proof. unfold HasAttribute. by destruct (stage !! primPath prim). Qed.

Lemma Get_GfVec3d_not_NullDeref stage attr (time : UsdTimeCode) :
  Get_GfVec3d stage attr time <> NullDeref.
Proof. unfold Get_GfVec3d, resolve. by destruct (stage !! primPath (attrPrim attr)). Qed.

Lemma Get_GfVec3f_not_NullDeref stage attr (time : UsdTimeCode) :
  Get_GfVec3f stage attr time <> NullDeref.
Proof. unfold Get_GfVec3f, resolve. by destruct (stage !! primPath (attrPrim attr)). Qed.

Lemma translation_with_item self item stage :
  UsdTransform3d.fItem self = Some item -> UsdTransform3d.translation self stage <> NullDeref.
Proof.
  intros H. unfold UsdTransform3d.translation. cbv zeta. with_item H.
  apply bind_not_NullDeref; [apply HasAttribute_not_NullDeref|].
  intros has. apply bind_not_NullDeref; [|by intros [[? ?] ?]].
  destruct has; [|done]. with_item H.
  apply bind_not_NullDeref; [apply Get_GfVec3d_not_NullDeref|done].
Qed.

Ltac float3_with_item H :=
  cbv zeta; with_item H;
  apply bind_not_NullDeref; [apply HasAttribute_not_NullDeref|];
  intros has; apply bind_not_NullDeref; [|by intros [[? ?] ?]];
  destruct has; [|done]; with_item H;
  apply bind_not_NullDeref; [apply Get_GfVec3f_not_NullDeref|done].

Lemma rotation_with_item self item stage :
  UsdTransform3d.fItem self = Some item -> UsdTransform3d.rotation self stage <> NullDeref.
Proof. intros H. unfold UsdTransform3d.rotation. float3_with_item H. Qed.

Lemma scale_with_item self item stage :
  UsdTransform3d.fItem self = Some item -> UsdTransform3d.scale self stage <> NullDeref.
Proof. intros H. unfold UsdTransform3d.scale. float3_with_item H. Qed.

Lemma rotatePivot_with_item self item stage :
  UsdTransform3d.fItem self = Some item -> UsdTransform3d.rotatePivot self stage <> NullDeref.
Proof. intros H. unfold UsdTransform3d.rotatePivot. float3_with_item H. Qed.

(** ** The pivots *)

(** C7.  The scale pivot is the rotate pivot.  On every object and stage,
    [scalePivot()] returns what [rotatePivot()] returns, and
    [scalePivotTranslate(x, y, z)] does to the stage what
    [rotatePivotTranslate(x, y, z)] does, whatever the operation behind the
    latter is; in particular on every valid scene item. *)
Theorem scale_pivot_is_rotate_pivot self stage x y z :
  UsdTransform3d.scalePivot self stage = UsdTransform3d.rotatePivot self stage /\
  UsdTransform3d.scalePivotTranslate self x y z stage
    = UsdTransform3d.rotatePivotTranslate self x y z stage.
Proof.
  split.
  - unfold UsdTransform3d.scalePivot. reflexivity.
  - unfold UsdTransform3d.scalePivotTranslate. reflexivity.
Qed.

(** ** The held item *)

(** C8, as amended.  [path], [translate], [translation], [rotate],
    [rotation], both [scale]s, the pivot accessors and mutators and the two
    segment matrices go through [fItem]: on an object without an item, such
    as a default-constructed one, each of them dereferences a null pointer,
    and on an object with an item the dereference succeeds, so that the
    accessors never end in a null dereference and the mutators do what the
    operation they forward to does.  [sceneItem] is different: it hands
    [fItem] back without going through it, null or not. *)
Theorem item_is_dereferenced self stage x y z :
  (UsdTransform3d.fItem self = nullptr ->
     UsdTransform3d.path self = NullDeref /\
     UsdTransform3d.translate self x y z stage = NullDeref /\
     UsdTransform3d.translation self stage = NullDeref /\
     UsdTransform3d.rotate self x y z stage = NullDeref /\
     UsdTransform3d.rotation self stage = NullDeref /\
     UsdTransform3d.scale_xyz self x y z stage = NullDeref /\
     UsdTransform3d.scale self stage = NullDeref /\
     UsdTransform3d.rotatePivotTranslate self x y z stage = NullDeref /\
     UsdTransform3d.rotatePivot self stage = NullDeref /\
     UsdTransform3d.scalePivotTranslate self x y z stage = NullDeref /\
     UsdTransform3d.scalePivot self stage = NullDeref /\
     UsdTransform3d.segmentInclusiveMatrix self stage = NullDeref /\
     UsdTransform3d.segmentExclusiveMatrix self stage = NullDeref /\
     UsdTransform3d.sceneItem self = Ok nullptr) /\
  (forall item, UsdTransform3d.fItem self = Some item ->
     UsdTransform3d.path self = Ok (UsdSceneItem.path item) /\
     UsdTransform3d.translate self x y z stage
       = translateOp (UsdSceneItem.prim item) (UsdSceneItem.path item) x y z stage /\
     UsdTransform3d.translation self stage <> NullDeref /\
     UsdTransform3d.rotate self x y z stage
       = rotateOp (UsdSceneItem.prim item) (UsdSceneItem.path item) x y z stage /\
     UsdTransform3d.rotation self stage <> NullDeref /\
     UsdTransform3d.scale_xyz self x y z stage
       = scaleOp (UsdSceneItem.prim item) (UsdSceneItem.path item) x y z stage /\
     UsdTransform3d.scale self stage <> NullDeref /\
     UsdTransform3d.rotatePivotTranslate self x y z stage
       = rotatePivotTranslateOp (UsdSceneItem.prim item) (UsdSceneItem.path item) x y z stage /\
     UsdTransform3d.rotatePivot self stage <> NullDeref /\
     UsdTransform3d.scalePivotTranslate self x y z stage
       = rotatePivotTranslateOp (UsdSceneItem.prim item) (UsdSceneItem.path item) x y z stage /\
     UsdTransform3d.scalePivot self stage <> NullDeref /\
     UsdTransform3d.segmentInclusiveMatrix self stage <> NullDeref /\
     UsdTransform3d.segmentExclusiveMatrix self stage <> NullDeref /\
     UsdTransform3d.sceneItem self = Ok (Some item)).
Proof.
  split.
  - intros H.
    unfold UsdTransform3d.scalePivotTranslate, UsdTransform3d.scalePivot.
    unfold UsdTransform3d.translate, UsdTransform3d.translation, UsdTransform3d.rotate,
      UsdTransform3d.rotation, UsdTransform3d.scale_xyz, UsdTransform3d.scale,
      UsdTransform3d.rotatePivotTranslate, UsdTransform3d.rotatePivot,
      UsdTransform3d.segmentInclusiveMatrix, UsdTransform3d.segmentExclusiveMatrix,
      UsdTransform3d.sceneItem.
    cbv zeta. without_item H. rewrite H. repeat split.
  - intros item H.
    pose proof (translation_with_item self item stage H).
    pose proof (rotation_with_item self item stage H).
    pose proof (scale_with_item self item stage H).
    pose proof (rotatePivot_with_item self item stage H).
    unfold UsdTransform3d.scalePivotTranslate, UsdTransform3d.scalePivot.
    unfold UsdTransform3d.translate, UsdTransform3d.rotate, UsdTransform3d.scale_xyz,
      UsdTransform3d.rotatePivotTranslate, UsdTransform3d.segmentInclusiveMatrix,
      UsdTransform3d.segmentExclusiveMatrix, UsdTransform3d.sceneItem.
    with_item H. rewrite H. repeat split; done.
Qed.

(** ** The command factories *)

(** C2, as amended.  On an object with an item, [translateCmd], [rotateCmd],
    [scaleCmd] (with or without arguments) and [rotatePivotTranslateCmd]
    return, without raising, a non-null command of their class for the path
    of the item.  [scalePivotTranslateCmd] returns no command: it throws
    [std::runtime_error], saying it is not implemented. *)
Theorem command_factories self item x y z :
  UsdTransform3d.fItem self = Some item ->
  UsdTransform3d.translateCmd_xyz self x y z
    = Ok (Some (UsdTranslateUndoableCommand_obj (UsdSceneItem.path item) x y z)) /\
  UsdTransform3d.translateCmd_void self
    = Ok (Some (UsdTranslateUndoableCommand_obj (UsdSceneItem.path item) 0 0 0)) /\
  UsdTransform3d.rotateCmd_xyz self x y z
    = Ok (Some (UsdRotateUndoableCommand_obj (UsdSceneItem.path item) x y z)) /\
  UsdTransform3d.rotateCmd_void self
    = Ok (Some (UsdRotateUndoableCommand_obj (UsdSceneItem.path item) 0 0 0)) /\
  UsdTransform3d.scaleCmd_xyz self x y z
    = Ok (Some (UsdScaleUndoableCommand_obj (UsdSceneItem.path item) x y z)) /\
  UsdTransform3d.scaleCmd_void self
    = Ok (Some (UsdScaleUndoableCommand_obj (UsdSceneItem.path item) 1 1 1)) /\
  UsdTransform3d.rotatePivotTranslateCmd self
    = Ok (Some (UsdRotatePivotTranslateUndoableCommand_obj (UsdSceneItem.path item))) /\
  UsdTransform3d.scalePivotTranslateCmd self
    = Throw "UsdTransform3d::scalePivotTranslateCmd() not implemented".
Proof.
  intros H.
  unfold UsdTransform3d.translateCmd_xyz, UsdTransform3d.translateCmd_void,
    UsdTransform3d.rotateCmd_xyz, UsdTransform3d.rotateCmd_void,
    UsdTransform3d.scaleCmd_xyz, UsdTransform3d.scaleCmd_void,
    UsdTransform3d.rotatePivotTranslateCmd, UsdTransform3d.scalePivotTranslateCmd.
  with_item H.
  unfold UsdTranslateUndoableCommand.create, UsdRotateUndoableCommand.create,
    UsdScaleUndoableCommand.create, UsdRotatePivotTranslateUndoableCommand.create,
    make_shared.
  repeat split.
Qed.

(** ** Conditional compilation *)

(** C6.  The command factories follow the version of the host interface.
    Below 2013 the translation unit has the parameterless [translateCmd],
    [rotateCmd] and [scaleCmd] and not the ones with arguments; from 2013 on
    it has the ones with arguments and not the parameterless ones.  The
    parameterless factories make their command for the path of the item with
    (0, 0, 0), (0, 0, 0) and (1, 1, 1); the others hand on the three values
    they are given. *)
Theorem factories_follow_version (UFE_PREVIEW_VERSION_NUM : Z) :
  ((UFE_PREVIEW_VERSION_NUM < 2013)%Z ->
     UsdTransform3d.def_translateCmd_void (UsdTransform3d.translation_unit UFE_PREVIEW_VERSION_NUM)
       = Some UsdTransform3d.translateCmd_void /\
     UsdTransform3d.def_rotateCmd_void (UsdTransform3d.translation_unit UFE_PREVIEW_VERSION_NUM)
       = Some UsdTransform3d.rotateCmd_void /\
     UsdTransform3d.def_scaleCmd_void (UsdTransform3d.translation_unit UFE_PREVIEW_VERSION_NUM)
       = Some UsdTransform3d.scaleCmd_void /\
     UsdTransform3d.def_translateCmd_xyz (UsdTransform3d.translation_unit UFE_PREVIEW_VERSION_NUM) = None /\
     UsdTransform3d.def_rotateCmd_xyz (UsdTransform3d.translation_unit UFE_PREVIEW_VERSION_NUM) = None /\
     UsdTransform3d.def_scaleCmd_xyz (UsdTransform3d.translation_unit UFE_PREVIEW_VERSION_NUM) = None) /\
  ((2013 <= UFE_PREVIEW_VERSION_NUM)%Z ->
     UsdTransform3d.def_translateCmd_xyz (UsdTransform3d.translation_unit UFE_PREVIEW_VERSION_NUM)
       = Some UsdTransform3d.translateCmd_xyz /\
     UsdTransform3d.def_rotateCmd_xyz (UsdTransform3d.translation_unit UFE_PREVIEW_VERSION_NUM)
       = Some UsdTransform3d.rotateCmd_xyz /\
     UsdTransform3d.def_scaleCmd_xyz (UsdTransform3d.translation_unit UFE_PREVIEW_VERSION_NUM)
       = Some UsdTransform3d.scaleCmd_xyz /\
     UsdTransform3d.def_translateCmd_void (UsdTransform3d.translation_unit UFE_PREVIEW_VERSION_NUM) = None /\
     UsdTransform3d.def_rotateCmd_void (UsdTransform3d.translation_unit UFE_PREVIEW_VERSION_NUM) = None /\
     UsdTransform3d.def_scaleCmd_void (UsdTransform3d.translation_unit UFE_PREVIEW_VERSION_NUM) = None) /\
  (forall self item, UsdTransform3d.fItem self = Some item ->
     UsdTransform3d.translateCmd_void self
       = UsdTranslateUndoableCommand.create (UsdSceneItem.path item) 0 0 0 /\
     UsdTransform3d.rotateCmd_void self
       = UsdRotateUndoableCommand.create (UsdSceneItem.path item) 0 0 0 /\
     UsdTransform3d.scaleCmd_void self
       = UsdScaleUndoableCommand.create (UsdSceneItem.path item) 1 1 1 /\
     forall x y z,
       UsdTransform3d.translateCmd_xyz self x y z
         = UsdTranslateUndoableCommand.create (UsdSceneItem.path item) x y z /\
       UsdTransform3d.rotateCmd_xyz self x y z
         = UsdRotateUndoableCommand.create (UsdSceneItem.path item) x y z /\
       UsdTransform3d.scaleCmd_xyz self x y z
         = UsdScaleUndoableCommand.create (UsdSceneItem.path item) x y z).
Proof.
  unfold UsdTransform3d.translation_unit. cbn [UsdTransform3d.def_translateCmd_void
    UsdTransform3d.def_rotateCmd_void UsdTransform3d.def_scaleCmd_void
    UsdTransform3d.def_translateCmd_xyz UsdTransform3d.def_rotateCmd_xyz
    UsdTransform3d.def_scaleCmd_xyz].
  split; [|split].
  - intros Hlt. apply Z.leb_gt in Hlt. rewrite Hlt. repeat split.
  - intros Hge. apply Z.leb_le in Hge. rewrite Hge. repeat split.
  - intros self item H.
    unfold UsdTransform3d.translateCmd_void, UsdTransform3d.rotateCmd_void,
      UsdTransform3d.scaleCmd_void, UsdTransform3d.translateCmd_xyz,
      UsdTransform3d.rotateCmd_xyz, UsdTransform3d.scaleCmd_xyz.
    with_item H. repeat split.
Qed.

(** ** The matrix members *)

(** C1.  What the two matrix members do in place of what their names say:
    [setMatrixCmd] returns a null pointer for every object and matrix, and
    [getMatrix] returns the content of a local it never assigns, which no
    item, prim or stage has any part in.  Both are compiled from version
    2021 on. *)
Theorem matrix_members_are_placeholders self (m stale : Ufe.Matrix4d) :
  UsdTransform3d.setMatrixCmd self m = Ok nullptr /\
  UsdTransform3d.getMatrix stale self = Ok stale /\
  UsdTransform3d.def_setMatrixCmd (UsdTransform3d.translation_unit 2021)
    = Some UsdTransform3d.setMatrixCmd /\
  UsdTransform3d.def_getMatrix (UsdTransform3d.translation_unit 2021)
    = Some UsdTransform3d.getMatrix.
Proof. repeat split. Qed.

(** ** The accessors *)

Lemma zero_is_not_one : Ufe.mkVector3d 0 0 0 <> Ufe.mkVector3d 1 1 1.
Proof.
  intros H. apply (f_equal Ufe.x) in H. cbn in H.
  apply (f_equal (fun d => PrimFloat.eqb d 0)) in H.
  vm_compute in H. discriminate.
Qed.

Lemma HasAttribute_lacks_value stage prim name (time : UsdTimeCode) :
  lacks_value stage prim name time ->
  exists has, HasAttribute stage prim name = Ok has.
Proof. intros (attrs & Hs & _). unfold HasAttribute. rewrite Hs. by eexists. Qed.

Lemma resolve_lacks_value stage prim name (time : UsdTimeCode) :
  lacks_value stage prim name time ->
  resolve stage (GetAttribute prim name) time = Ok None.
Proof.
  intros (attrs & Hs & Hv). unfold resolve, GetAttribute. cbn. rewrite Hs.
  destruct Hv as [-> | (a & -> & Ha)]; cbn; [done | by rewrite Ha].
Qed.

(** Reads an attribute that has no value: whether or not the attribute
    exists, the fallback is what comes out. *)
Ltac read_unauthored H Hlack :=
  cbv zeta; with_item H;
  destruct (HasAttribute_lacks_value _ _ _ _ Hlack) as [has ->];
  rewrite bind_Ok; destruct has; [|reflexivity];
  with_item H;
  unfold Get_GfVec3d, Get_GfVec3f;
  rewrite (resolve_lacks_value _ _ _ _ Hlack);
  reflexivity.

(** C3.  On an object with an item whose prim lacks an attribute, or has it
    without a value at the time of the item's path, the accessor of that
    attribute returns (0, 0, 0): [scale] for "xformOp:scale", which is
    therefore not the identity scale (1, 1, 1), [rotation] for
    "xformOp:rotateXYZ", [translation] for "xformOp:translate" and
    [rotatePivot] for "xformOp:translate:pivot". *)
Theorem unauthored_reads_zero self item stage :
  UsdTransform3d.fItem self = Some item ->
  (lacks_value stage (UsdSceneItem.prim item) "xformOp:scale" (getTime (UsdSceneItem.path item)) ->
     UsdTransform3d.scale self stage = Ok (Ufe.mkVector3d 0 0 0) /\
     UsdTransform3d.scale self stage <> Ok (Ufe.mkVector3d 1 1 1)) /\
  (lacks_value stage (UsdSceneItem.prim item) "xformOp:rotateXYZ" (getTime (UsdSceneItem.path item)) ->
     UsdTransform3d.rotation self stage = Ok (Ufe.mkVector3d 0 0 0)) /\
  (lacks_value stage (UsdSceneItem.prim item) "xformOp:translate" (getTime (UsdSceneItem.path item)) ->
     UsdTransform3d.translation self stage = Ok (Ufe.mkVector3d 0 0 0)) /\
  (lacks_value stage (UsdSceneItem.prim item) "xformOp:translate:pivot" (getTime (UsdSceneItem.path item)) ->
     UsdTransform3d.rotatePivot self stage = Ok (Ufe.mkVector3d 0 0 0)).
Proof.
  intros H.
  assert (Hscale : lacks_value stage (UsdSceneItem.prim item) "xformOp:scale"
                     (getTime (UsdSceneItem.path item)) ->
                   UsdTransform3d.scale self stage = Ok (Ufe.mkVector3d 0 0 0)).
  { intros Hlack. unfold UsdTransform3d.scale. read_unauthored H Hlack. }
  split; [|split; [|split]].
  - intros Hlack. split; [by apply Hscale|].
    rewrite Hscale by done. intros Heq. apply zero_is_not_one. congruence.
  - intros Hlack. unfold UsdTransform3d.rotation. read_unauthored H Hlack.
  - intros Hlack. unfold UsdTransform3d.translation. read_unauthored H Hlack.
  - intros Hlack. unfold UsdTransform3d.rotatePivot. read_unauthored H Hlack.
Qed.

(** ** The segment matrices *)

(** [convertFromUsd] copies the sixteen elements. *)
Lemma convertFromUsd_copies (m : GfMatrix4d) :
  Ufe.matrix (UsdTransform3d.convertFromUsd m) = Get m.
Proof. by destruct m as [[[? ? ? ?] [? ? ? ?] [? ? ? ?] [? ? ? ?]]]. Qed.

Lemma convertFromUsd_inj (m n : GfMatrix4d) :
  UsdTransform3d.convertFromUsd m = UsdTransform3d.convertFromUsd n -> m = n.
Proof.
  intros H. apply (f_equal Ufe.matrix) in H. rewrite !convertFromUsd_copies in H.
  destruct m, n. cbn in H. by subst.
Qed.

(** X8.  On an object with an item and over any transform cache,
    [segmentInclusiveMatrix] returns the local-to-world transform of the
    item's prim and [segmentExclusiveMatrix] its parent-to-world transform,
    both as the cache gives them for the time of the item's path and
    converted element by element.  The two results are therefore equal
    exactly when the cache's two transforms are. *)
Theorem segment_matrices self item stage :
  UsdTransform3d.fItem self = Some item ->
  UsdTransform3d.segmentInclusiveMatrix self stage
    = Ok (UsdTransform3d.convertFromUsd
            (GetLocalToWorldTransform stage (getTime (UsdSceneItem.path item)) (UsdSceneItem.prim item))) /\
  UsdTransform3d.segmentExclusiveMatrix self stage
    = Ok (UsdTransform3d.convertFromUsd
            (GetParentToWorldTransform stage (getTime (UsdSceneItem.path item)) (UsdSceneItem.prim item))) /\
  (GetLocalToWorldTransform stage (getTime (UsdSceneItem.path item)) (UsdSceneItem.prim item)
     = GetParentToWorldTransform stage (getTime (UsdSceneItem.path item)) (UsdSceneItem.prim item)
   <-> UsdTransform3d.segmentInclusiveMatrix self stage
       = UsdTransform3d.segmentExclusiveMatrix self stage).
Proof.
  intros H.
  unfold UsdTransform3d.segmentInclusiveMatrix, UsdTransform3d.segmentExclusiveMatrix.
  unfold UsdTransform3d.primToUfeXform, UsdTransform3d.primToUfeExclusiveXform.
  cbv zeta. with_item H.
  split; [reflexivity|]. split; [reflexivity|]. split.
  - by intros ->.
  - intros Heq. apply convertFromUsd_inj. congruence.
Qed.

(** X1.  [convertFromUsd] returns a copy of its argument: the element at
    row [i] and column [j] of the result is the element at row [i] and
    column [j] of the engine's matrix. *)
Theorem convertFromUsd_elementwise (m : GfMatrix4d) (i j : nat) :
  elem (Ufe.matrix (UsdTransform3d.convertFromUsd m)) i j = elem (Get m) i j.
Proof.
  unfold UsdTransform3d.convertFromUsd, elem. cbv zeta. cbn [Ufe.matrix].
  destruct i as [|[|[|i]]]; destruct j as [|[|[|j]]]; reflexivity.
Qed.

(** ** Reading authored values *)

(** The prim is on the stage and its attribute [name] resolves to [val] at
    [time]. *)
Lemma resolve_authored stage prim name (time : UsdTimeCode) attrs a val :
  stage !! primPath prim = Some attrs -> attrs !! name = Some a -> a time = Some val ->
  HasAttribute stage prim name = Ok true /\
  resolve stage (GetAttribute prim name) time = Ok (Some val).
Proof.
  intros Hs Ha Hv. unfold HasAttribute, resolve, GetAttribute. cbn [attrPrim attrName].
  rewrite Hs, Ha. cbn. rewrite Hv. by split.
Qed.

Ltac read_authored H Hs Ha Hv :=
  cbv zeta; with_item H;
  destruct (resolve_authored _ _ _ _ _ _ _ Hs Ha Hv) as [-> Hres];
  rewrite bind_Ok; with_item H;
  unfold Get_GfVec3d, Get_GfVec3f; rewrite Hres;
  reflexivity.

(** X2.  On an object with an item whose prim is on the stage, an accessor
    returns what the engine holds for its attribute at the time of the
    item's path: [translation] the three components of the [double3] under
    "xformOp:translate"; [rotation], [scale] and [rotatePivot] the three
    components, widened to [double], of the [float3] under
    "xformOp:rotateXYZ", "xformOp:scale" and "xformOp:translate:pivot". *)
Theorem authored_values_are_read self item stage attrs :
  UsdTransform3d.fItem self = Some item ->
  stage !! primPath (UsdSceneItem.prim item) = Some attrs ->
  (forall a v, attrs !! "xformOp:translate" = Some a ->
     a (getTime (UsdSceneItem.path item)) = Some (VtVec3d v) ->
     UsdTransform3d.translation self stage = Ok (Ufe.mkVector3d (d0 v) (d1 v) (d2 v))) /\
  (forall a v, attrs !! "xformOp:rotateXYZ" = Some a ->
     a (getTime (UsdSceneItem.path item)) = Some (VtVec3f v) ->
     UsdTransform3d.rotation self stage
       = Ok (Ufe.mkVector3d (float_to_double (f0 v)) (float_to_double (f1 v)) (float_to_double (f2 v)))) /\
  (forall a v, attrs !! "xformOp:scale" = Some a ->
     a (getTime (UsdSceneItem.path item)) = Some (VtVec3f v) ->
     UsdTransform3d.scale self stage
       = Ok (Ufe.mkVector3d (float_to_double (f0 v)) (float_to_double (f1 v)) (float_to_double (f2 v)))) /\
  (forall a v, attrs !! "xformOp:translate:pivot" = Some a ->
     a (getTime (UsdSceneItem.path item)) = Some (VtVec3f v) ->
     UsdTransform3d.rotatePivot self stage
       = Ok (Ufe.mkVector3d (float_to_double (f0 v)) (float_to_double (f1 v)) (float_to_double (f2 v)))).
Proof.
  intros H Hs. split; [|split; [|split]]; intros a v Ha Hv.
  - unfold UsdTransform3d.translation. read_authored H Hs Ha Hv.
  - unfold UsdTransform3d.rotation. read_authored H Hs Ha Hv.
  - unfold UsdTransform3d.scale. read_authored H Hs Ha Hv.
  - unfold UsdTransform3d.rotatePivot. read_authored H Hs Ha Hv.
Qed.


(** ** The accessors on a valid item, case by case *)

(** What [translation] makes of what its attribute resolves to. *)
Definition vector_of_double3 (val : option VtValue) : Ufe.Vector3d :=
  match val with
  | Some (VtVec3d v) => Ufe.mkVector3d (d0 v) (d1 v) (d2 v)
  | _ => Ufe.mkVector3d 0 0 0
  end.

(** What [rotation], [scale] and [rotatePivot] make of what their
    attribute resolves to. *)
Definition vector_of_float3 (val : option VtValue) : Ufe.Vector3d :=
  match val with
  | Some (VtVec3f v) =>
      Ufe.mkVector3d (float_to_double (f0 v)) (float_to_double (f1 v)) (float_to_double (f2 v))
  | _ => Ufe.mkVector3d 0 0 0
  end.

(** What the attribute [name] of a prim resolves to at [time]. *)
Definition resolved (attrs : gmap TfToken (AttributeData UsdTimeCode)) (name : TfToken)
    (time : UsdTimeCode) : option VtValue :=
  a ← attrs !! name; a time.

Lemma HasAttribute_on_stage stage prim name attrs :
  stage !! primPath prim = Some attrs ->
  HasAttribute stage prim name = Ok (bool_decide (is_Some (attrs !! name))).
Proof. intros Hs. unfold HasAttribute. by rewrite Hs. Qed.

Lemma resolve_on_stage stage prim name (time : UsdTimeCode) attrs :
  stage !! primPath prim = Some attrs ->
  resolve stage (GetAttribute prim name) time = Ok (resolved attrs name time).
Proof. intros Hs. unfold resolve, GetAttribute. cbn [attrPrim attrName]. by rewrite Hs. Qed.

Lemma resolved_missing attrs name (time : UsdTimeCode) :
  bool_decide (is_Some (attrs !! name)) = false -> resolved attrs name time = None.
Proof.
  intros Hb. apply bool_decide_eq_false in Hb. unfold resolved.
  destruct (attrs !! name) as [a|]; [|done]. exfalso. apply Hb. by eexists.
Qed.

Ltac read_on_stage H Hs :=
  let Hhas := fresh "Hhas" in
  cbv zeta; with_item H;
  rewrite (HasAttribute_on_stage _ _ _ _ Hs), bind_Ok;
  match goal with
  | |- context [bool_decide (is_Some (?m !! ?n))] =>
      destruct (bool_decide (is_Some (m !! n))) eqn:Hhas
  end;
  [ with_item H; unfold Get_GfVec3d, Get_GfVec3f;
    rewrite (resolve_on_stage _ _ _ _ _ Hs), bind_Ok;
    match goal with
    | |- context [resolved ?m ?n ?t] => destruct (resolved m n t) as [[?|?|]|]
    end; reflexivity
  | rewrite (resolved_missing _ _ _ Hhas); reflexivity ].

Lemma translation_on_stage self item stage attrs :
  UsdTransform3d.fItem self = Some item ->
  stage !! primPath (UsdSceneItem.prim item) = Some attrs ->
  UsdTransform3d.translation self stage
    = Ok (vector_of_double3 (resolved attrs "xformOp:translate" (getTime (UsdSceneItem.path item)))).
Proof. intros H Hs. unfold UsdTransform3d.translation, vector_of_double3. read_on_stage H Hs. Qed.

Lemma rotation_on_stage self item stage attrs :
  UsdTransform3d.fItem self = Some item ->
  stage !! primPath (UsdSceneItem.prim item) = Some attrs ->
  UsdTransform3d.rotation self stage
    = Ok (vector_of_float3 (resolved attrs "xformOp:rotateXYZ" (getTime (UsdSceneItem.path item)))).
Proof. intros H Hs. unfold UsdTransform3d.rotation, vector_of_float3. read_on_stage H Hs. Qed.

Lemma scale_on_stage self item stage attrs :
  UsdTransform3d.fItem self = Some item ->
  stage !! primPath (UsdSceneItem.prim item) = Some attrs ->
  UsdTransform3d.scale self stage
    = Ok (vector_of_float3 (resolved attrs "xformOp:scale" (getTime (UsdSceneItem.path item)))).
Proof. intros H Hs. unfold UsdTransform3d.scale, vector_of_float3. read_on_stage H Hs. Qed.

Lemma rotatePivot_on_stage self item stage attrs :
  UsdTransform3d.fItem self = Some item ->
  stage !! primPath (UsdSceneItem.prim item) = Some attrs ->
  UsdTransform3d.rotatePivot self stage
    = Ok (vector_of_float3 (resolved attrs "xformOp:translate:pivot" (getTime (UsdSceneItem.path item)))).
Proof. intros H Hs. unfold UsdTransform3d.rotatePivot, vector_of_float3. read_on_stage H Hs. Qed.


(** X3.  The command factories and the item.  [translateCmd], [rotateCmd]
    and [scaleCmd], with or without arguments, and [rotatePivotTranslateCmd]
    go through [fItem]: on an object without an item each of them
    dereferences a null pointer and makes no command.  The other three do
    not touch [fItem]: without an item [scalePivotTranslateCmd] still throws
    its exception, [setMatrixCmd] still returns a null pointer and
    [getMatrix] still returns its unassigned local. *)
Theorem factories_without_item self x y z (m stale : Ufe.Matrix4d) :
  UsdTransform3d.fItem self = nullptr ->
  UsdTransform3d.translateCmd_xyz self x y z = NullDeref /\
  UsdTransform3d.translateCmd_void self = NullDeref /\
  UsdTransform3d.rotateCmd_xyz self x y z = NullDeref /\
  UsdTransform3d.rotateCmd_void self = NullDeref /\
  UsdTransform3d.scaleCmd_xyz self x y z = NullDeref /\
  UsdTransform3d.scaleCmd_void self = NullDeref /\
  UsdTransform3d.rotatePivotTranslateCmd self = NullDeref /\
  UsdTransform3d.scalePivotTranslateCmd self
    = Throw "UsdTransform3d::scalePivotTranslateCmd() not implemented" /\
  UsdTransform3d.setMatrixCmd self m = Ok nullptr /\
  UsdTransform3d.getMatrix stale self = Ok stale.
Proof.
  intros H.
  unfold UsdTransform3d.translateCmd_xyz, UsdTransform3d.translateCmd_void,
    UsdTransform3d.rotateCmd_xyz, UsdTransform3d.rotateCmd_void,
    UsdTransform3d.scaleCmd_xyz, UsdTransform3d.scaleCmd_void,
    UsdTransform3d.rotatePivotTranslateCmd.
  without_item H. repeat split.
Qed.

(** X4.  Each accessor reads one type only.  On an object with an item
    whose prim is on the stage, [translation] returns (0, 0, 0) when
    "xformOp:translate" holds a [float3], and [rotation], [scale] and
    [rotatePivot] return (0, 0, 0) when their attribute holds a [double3]:
    a value of the other precision is not converted, it is read as no
    value. *)
Theorem other_precision_reads_zero self item stage attrs :
  UsdTransform3d.fItem self = Some item ->
  stage !! primPath (UsdSceneItem.prim item) = Some attrs ->
  (forall v, resolved attrs "xformOp:translate" (getTime (UsdSceneItem.path item)) = Some (VtVec3f v) ->
     UsdTransform3d.translation self stage = Ok (Ufe.mkVector3d 0 0 0)) /\
  (forall v, resolved attrs "xformOp:rotateXYZ" (getTime (UsdSceneItem.path item)) = Some (VtVec3d v) ->
     UsdTransform3d.rotation self stage = Ok (Ufe.mkVector3d 0 0 0)) /\
  (forall v, resolved attrs "xformOp:scale" (getTime (UsdSceneItem.path item)) = Some (VtVec3d v) ->
     UsdTransform3d.scale self stage = Ok (Ufe.mkVector3d 0 0 0)) /\
  (forall v, resolved attrs "xformOp:translate:pivot" (getTime (UsdSceneItem.path item)) = Some (VtVec3d v) ->
     UsdTransform3d.rotatePivot self stage = Ok (Ufe.mkVector3d 0 0 0) /\
     UsdTransform3d.scalePivot self stage = Ok (Ufe.mkVector3d 0 0 0)).
Proof.
  intros H Hs. split; [|split; [|split]]; intros v Hv.
  - by rewrite (translation_on_stage _ _ _ _ H Hs), Hv.
  - by rewrite (rotation_on_stage _ _ _ _ H Hs), Hv.
  - by rewrite (scale_on_stage _ _ _ _ H Hs), Hv.
  - unfold UsdTransform3d.scalePivot.
    by rewrite (rotatePivot_on_stage _ _ _ _ H Hs), Hv.
Qed.

(** X5.  Each accessor depends on its own attribute only.  For an object
    with an item whose prim is on two stages: if the attribute of an
    accessor resolves to the same thing on both at the time of the item's
    path, the accessor returns the same on both, whatever else differs
    between the stages (other attributes, other prims, other times, or the
    attribute being absent on one and present without a value on the
    other). *)
Theorem accessors_read_one_attribute self item stage stage' attrs attrs' :
  UsdTransform3d.fItem self = Some item ->
  stage !! primPath (UsdSceneItem.prim item) = Some attrs ->
  stage' !! primPath (UsdSceneItem.prim item) = Some attrs' ->
  (resolved attrs "xformOp:translate" (getTime (UsdSceneItem.path item))
     = resolved attrs' "xformOp:translate" (getTime (UsdSceneItem.path item)) ->
   UsdTransform3d.translation self stage = UsdTransform3d.translation self stage') /\
  (resolved attrs "xformOp:rotateXYZ" (getTime (UsdSceneItem.path item))
     = resolved attrs' "xformOp:rotateXYZ" (getTime (UsdSceneItem.path item)) ->
   UsdTransform3d.rotation self stage = UsdTransform3d.rotation self stage') /\
  (resolved attrs "xformOp:scale" (getTime (UsdSceneItem.path item))
     = resolved attrs' "xformOp:scale" (getTime (UsdSceneItem.path item)) ->
   UsdTransform3d.scale self stage = UsdTransform3d.scale self stage') /\
  (resolved attrs "xformOp:translate:pivot" (getTime (UsdSceneItem.path item))
     = resolved attrs' "xformOp:translate:pivot" (getTime (UsdSceneItem.path item)) ->
   UsdTransform3d.rotatePivot self stage = UsdTransform3d.rotatePivot self stage' /\
   UsdTransform3d.scalePivot self stage = UsdTransform3d.scalePivot self stage').
Proof.
  intros H Hs Hs'. split; [|split; [|split]]; intros Heq.
  - by rewrite (translation_on_stage _ _ _ _ H Hs), (translation_on_stage _ _ _ _ H Hs'), Heq.
  - by rewrite (rotation_on_stage _ _ _ _ H Hs), (rotation_on_stage _ _ _ _ H Hs'), Heq.
  - by rewrite (scale_on_stage _ _ _ _ H Hs), (scale_on_stage _ _ _ _ H Hs'), Heq.
  - unfold UsdTransform3d.scalePivot.
    by rewrite (rotatePivot_on_stage _ _ _ _ H Hs), (rotatePivot_on_stage _ _ _ _ H Hs'), Heq.
Qed.

(** X6.  The members under conditional compilation fit together in every
    version of the host interface.  The accessors [rotation] and [scale]
    are compiled exactly from version 2013 on and [setMatrixCmd] and
    [getMatrix] exactly from version 2021 on; of each of [translateCmd],
    [rotateCmd] and [scaleCmd] exactly one of the two overloads is
    compiled; and a translation unit with the matrix members has the
    accessors and the factories with arguments. *)
Theorem conditional_members_fit (UFE_PREVIEW_VERSION_NUM : Z) :
  (is_Some (UsdTransform3d.def_rotation (UsdTransform3d.translation_unit UFE_PREVIEW_VERSION_NUM))
     <-> (2013 <= UFE_PREVIEW_VERSION_NUM)%Z) /\
  (is_Some (UsdTransform3d.def_scale (UsdTransform3d.translation_unit UFE_PREVIEW_VERSION_NUM))
     <-> (2013 <= UFE_PREVIEW_VERSION_NUM)%Z) /\
  (is_Some (UsdTransform3d.def_setMatrixCmd (UsdTransform3d.translation_unit UFE_PREVIEW_VERSION_NUM))
     <-> (2021 <= UFE_PREVIEW_VERSION_NUM)%Z) /\
  (is_Some (UsdTransform3d.def_getMatrix (UsdTransform3d.translation_unit UFE_PREVIEW_VERSION_NUM))
     <-> (2021 <= UFE_PREVIEW_VERSION_NUM)%Z) /\
  (is_Some (UsdTransform3d.def_translateCmd_xyz (UsdTransform3d.translation_unit UFE_PREVIEW_VERSION_NUM))
     <-> UsdTransform3d.def_translateCmd_void (UsdTransform3d.translation_unit UFE_PREVIEW_VERSION_NUM) = None) /\
  (is_Some (UsdTransform3d.def_rotateCmd_xyz (UsdTransform3d.translation_unit UFE_PREVIEW_VERSION_NUM))
     <-> UsdTransform3d.def_rotateCmd_void (UsdTransform3d.translation_unit UFE_PREVIEW_VERSION_NUM) = None) /\
  (is_Some (UsdTransform3d.def_scaleCmd_xyz (UsdTransform3d.translation_unit UFE_PREVIEW_VERSION_NUM))
     <-> UsdTransform3d.def_scaleCmd_void (UsdTransform3d.translation_unit UFE_PREVIEW_VERSION_NUM) = None) /\
  (is_Some (UsdTransform3d.def_setMatrixCmd (UsdTransform3d.translation_unit UFE_PREVIEW_VERSION_NUM)) ->
     is_Some (UsdTransform3d.def_rotation (UsdTransform3d.translation_unit UFE_PREVIEW_VERSION_NUM)) /\
     is_Some (UsdTransform3d.def_scale (UsdTransform3d.translation_unit UFE_PREVIEW_VERSION_NUM)) /\
     is_Some (UsdTransform3d.def_translateCmd_xyz (UsdTransform3d.translation_unit UFE_PREVIEW_VERSION_NUM)) /\
     is_Some (UsdTransform3d.def_rotateCmd_xyz (UsdTransform3d.translation_unit UFE_PREVIEW_VERSION_NUM)) /\
     is_Some (UsdTransform3d.def_scaleCmd_xyz (UsdTransform3d.translation_unit UFE_PREVIEW_VERSION_NUM))).
Proof.
  unfold UsdTransform3d.translation_unit, ifdef.
  cbn [UsdTransform3d.def_rotation UsdTransform3d.def_scale UsdTransform3d.def_setMatrixCmd
       UsdTransform3d.def_getMatrix UsdTransform3d.def_translateCmd_xyz
       UsdTransform3d.def_rotateCmd_xyz UsdTransform3d.def_scaleCmd_xyz
       UsdTransform3d.def_translateCmd_void UsdTransform3d.def_rotateCmd_void
       UsdTransform3d.def_scaleCmd_void].
  destruct (Z.leb_spec 2013 UFE_PREVIEW_VERSION_NUM) as [H13|H13];
    destruct (Z.leb_spec 2021 UFE_PREVIEW_VERSION_NUM) as [H21|H21];
    cbn [negb]; rewrite ?is_Some_alt; intuition (try discriminate; try lia).
Qed.

(** X7.  On a valid item the accessors do not fail.  For an object with an
    item whose prim is on the stage, [translation], [rotation], [scale],
    [rotatePivot] and [scalePivot] each return a vector: whether the
    attribute is missing, has no value, or holds a value of any type, none
    of them dereferences a null pointer, fails on the prim or throws. *)
Theorem accessors_return_on_valid_item self item stage :
  UsdTransform3d.fItem self = Some item ->
  is_Some (stage !! primPath (UsdSceneItem.prim item)) ->
  (exists v, UsdTransform3d.translation self stage = Ok v) /\
  (exists v, UsdTransform3d.rotation self stage = Ok v) /\
  (exists v, UsdTransform3d.scale self stage = Ok v) /\
  (exists v, UsdTransform3d.rotatePivot self stage = Ok v) /\
  (exists v, UsdTransform3d.scalePivot self stage = Ok v).
Proof.
  intros H [attrs Hs]. unfold UsdTransform3d.scalePivot.
  rewrite (translation_on_stage _ _ _ _ H Hs), (rotation_on_stage _ _ _ _ H Hs),
    (scale_on_stage _ _ _ _ H Hs), (rotatePivot_on_stage _ _ _ _ H Hs).
  repeat split; by eexists.
Qed.


(** ** The product with the identity matrix *)













(** ** The segment matrices over local transforms *)



(** ** Writing and reading the translation *)

Context `{!EqDecision UsdTimeCode}.

Lemma translateOp_authoring_HasAttribute prim path x y z stage stage' :
  translateOp_authoring prim path x y z stage = Ok stage' ->
  HasAttribute stage' prim "xformOp:translate" = Ok true.
Proof.
  unfold translateOp_authoring, HasAttribute.
  cbv zeta. destruct (stage !! primPath prim) as [attrs|]; [|done].
  intros [= <-]. rewrite lookup_insert_eq. f_equal.
  apply bool_decide_eq_true. rewrite lookup_insert_eq. by eexists.
Qed.

Lemma translateOp_authoring_Get prim path x y z stage stage' :
  translateOp_authoring prim path x y z stage = Ok stage' ->
  Get_GfVec3d stage' (GetAttribute prim "xformOp:translate") (getTime path)
    = Ok (Some (mkGfVec3d x y z)).
Proof.
  unfold translateOp_authoring, Get_GfVec3d, resolve, GetAttribute.
  cbv zeta. cbn [attrPrim attrName]. destruct (stage !! primPath prim) as [attrs|]; [|done].
  intros [= <-]. rewrite lookup_insert_eq, bind_Ok, lookup_insert_eq. cbn.
  by rewrite decide_True.
Qed.

Lemma translateOp_authoring_valid prim path x y z stage :
  is_Some (stage !! primPath prim) ->
  exists stage', translateOp_authoring prim path x y z stage = Ok stage'.
Proof.
  intros [attrs Hs]. unfold translateOp_authoring. cbv zeta. rewrite Hs. by eexists.
Qed.

(** C4.  With [translateOp] authoring the attribute as modelled, on an
    object with an item whose prim is on the stage and for all doubles x, y
    and z: [translate(x, y, z)] succeeds, and on the stage it leaves
    [translation()] returns exactly (x, y, z). *)
Theorem translate_then_translation self item stage x y z :
  (forall prim path x y z stage,
     translateOp prim path x y z stage = translateOp_authoring prim path x y z stage) ->
  UsdTransform3d.fItem self = Some item ->
  is_Some (stage !! primPath (UsdSceneItem.prim item)) ->
  exists stage',
    UsdTransform3d.translate self x y z stage = Ok stage' /\
    UsdTransform3d.translation self stage' = Ok (Ufe.mkVector3d x y z).
Proof.
  intros Hop H Hprim.
  destruct (translateOp_authoring_valid (UsdSceneItem.prim item) (UsdSceneItem.path item)
              x y z stage Hprim) as [stage' Hstage'].
  exists stage'. split.
  - unfold UsdTransform3d.translate. with_item H. by rewrite Hop.
  - unfold UsdTransform3d.translation. cbv zeta. with_item H.
    rewrite (translateOp_authoring_HasAttribute _ _ _ _ _ _ _ Hstage'), bind_Ok.
    with_item H.
    by rewrite (translateOp_authoring_Get _ _ _ _ _ _ _ Hstage').
Qed.

End Verification.

(** * The properties on the small scene *)

Local Open Scope float_scope.

(** C2: the factories on the cube. *)
Lemma command_factories_on_cube :
  UsdTransform3d.fItem Demo.transform = Some Demo.cube /\
  UsdTransform3d.translateCmd_xyz Demo.transform 1 2 3
    = Ok (Some (UsdTranslateUndoableCommand_obj (UsdSceneItem.path Demo.cube) 1 2 3)) /\
  UsdTransform3d.rotatePivotTranslateCmd Demo.transform
    = Ok (Some (UsdRotatePivotTranslateUndoableCommand_obj (UsdSceneItem.path Demo.cube))) /\
  UsdTransform3d.scalePivotTranslateCmd Demo.transform
    = Throw "UsdTransform3d::scalePivotTranslateCmd() not implemented".
Proof.
  split; [reflexivity|].
  destruct (command_factories Demo.transform Demo.cube 1 2 3 eq_refl)
    as (Ht & _ & _ & _ & _ & _ & Hp & Hs).
  exact (conj Ht (conj Hp Hs)).
Defined.

(** C2 as stated fails on the cube, a valid scene item: asked for the
    command that translates its scale pivot, the class throws. *)
Lemma scalePivotTranslateCmd_throws_on_cube :
  UsdTransform3d.fItem Demo.transform = Some Demo.cube /\
  is_Some (Demo.stage !! primPath (UsdSceneItem.prim Demo.cube)) /\
  UsdTransform3d.scalePivotTranslateCmd Demo.transform
    = Throw "UsdTransform3d::scalePivotTranslateCmd() not implemented" /\
  is_ok (UsdTransform3d.scalePivotTranslateCmd Demo.transform) = false.
Proof.
  split; [reflexivity|]. split; [|split; reflexivity].
  eexists. vm_compute. reflexivity.
Qed.

(** C8: without an item and with the cube. *)
Lemma item_is_dereferenced_on_cube :
  (UsdTransform3d.fItem UsdTransform3d.new = nullptr /\
   UsdTransform3d.path UsdTransform3d.new = NullDeref /\
   UsdTransform3d.translation (U := Demo.utils) UsdTransform3d.new Demo.stage = NullDeref /\
   UsdTransform3d.sceneItem UsdTransform3d.new = Ok nullptr) /\
  (UsdTransform3d.fItem (UsdTransform3d.setItem UsdTransform3d.new (Some Demo.cube)) = Some Demo.cube /\
   UsdTransform3d.path (UsdTransform3d.setItem UsdTransform3d.new (Some Demo.cube))
     = Ok (UsdSceneItem.path Demo.cube) /\
   UsdTransform3d.sceneItem (UsdTransform3d.setItem UsdTransform3d.new (Some Demo.cube))
     = Ok (Some Demo.cube)).
Proof.
  split.
  - destruct (item_is_dereferenced (U := Demo.utils) (P := Demo.privateUtils)
                (X := Demo.xformCache) UsdTransform3d.new Demo.stage 1 2 3) as [Hnull _].
    destruct (Hnull eq_refl) as (Hpath & _ & Htr & _ & _ & _ & _ & _ & _ & _ & _ & _ & _ & Hsi).
    exact (conj eq_refl (conj Hpath (conj Htr Hsi))).
  - destruct (item_is_dereferenced (U := Demo.utils) (P := Demo.privateUtils)
                (X := Demo.xformCache)
                (UsdTransform3d.setItem UsdTransform3d.new (Some Demo.cube)) Demo.stage 1 2 3)
      as [_ Hitem].
    destruct (Hitem Demo.cube eq_refl) as (Hpath & _ & _ & _ & _ & _ & _ & _ & _ & _ & _ & _ & _ & Hsi).
    exact (conj eq_refl (conj Hpath Hsi)).
Defined.

(** C8 as stated fails for [sceneItem]: on the object [create()] makes, it
    returns normally, with a null pointer, where [path] on the same object
    dereferences one. *)
Lemma sceneItem_of_default_constructed :
  UsdTransform3d.create_default = Some UsdTransform3d.new /\
  UsdTransform3d.sceneItem UsdTransform3d.new = Ok nullptr /\
  is_ok (UsdTransform3d.sceneItem UsdTransform3d.new) = true /\
  UsdTransform3d.path UsdTransform3d.new = NullDeref.
Proof. repeat split. Qed.

(** C6: version 2012 and version 2021 of the host interface. *)
Lemma factories_follow_version_2012_2021 :
  (UsdTransform3d.def_translateCmd_void (UsdTransform3d.translation_unit (U := Demo.utils) 2012)
     = Some UsdTransform3d.translateCmd_void /\
   UsdTransform3d.def_translateCmd_xyz (UsdTransform3d.translation_unit (U := Demo.utils) 2012) = None) /\
  (UsdTransform3d.def_translateCmd_xyz (UsdTransform3d.translation_unit (U := Demo.utils) 2021)
     = Some UsdTransform3d.translateCmd_xyz /\
   UsdTransform3d.def_translateCmd_void (UsdTransform3d.translation_unit (U := Demo.utils) 2021) = None) /\
  UsdTransform3d.scaleCmd_void Demo.transform
    = UsdScaleUndoableCommand.create (UsdSceneItem.path Demo.cube) 1 1 1.
Proof.
  split; [|split].
  - destruct (factories_follow_version (U := Demo.utils) 2012) as (Hold & _ & _).
    destruct (Hold eq_refl) as (Hvoid & _ & _ & Hxyz & _).
    exact (conj Hvoid Hxyz).
  - destruct (factories_follow_version (U := Demo.utils) 2021) as (_ & Hnew & _).
    assert (Hge : (2013 <= 2021)%Z) by (intros Hcmp; discriminate Hcmp).
    destruct (Hnew Hge) as (Hxyz & _ & _ & Hvoid & _).
    exact (conj Hxyz Hvoid).
  - destruct (factories_follow_version (U := Demo.utils) 2012) as (_ & _ & Hargs).
    destruct (Hargs Demo.transform Demo.cube eq_refl) as (_ & _ & Hscale & _).
    exact Hscale.
Defined.

(** C1 on the cube: no command comes back, and the matrix that comes back
    is the stale one, not the cube's. *)
Example matrix_members_on_cube :
  UsdTransform3d.setMatrixCmd Demo.transform (UsdTransform3d.convertFromUsd Demo.proxyToWorld)
    = Ok nullptr /\
  UsdTransform3d.getMatrix Demo.stale Demo.transform = Ok Demo.stale /\
  UsdTransform3d.segmentInclusiveMatrix (U := Demo.utils) (X := Demo.xformCache)
      Demo.transform Demo.stage
    = Ok (UsdTransform3d.convertFromUsd Demo.proxyToWorld) /\
  elem (Ufe.matrix Demo.stale) 3 0 = 0%float /\
  elem (Ufe.matrix (UsdTransform3d.convertFromUsd Demo.proxyToWorld)) 3 0 = 1%float.
Proof. repeat split. Qed.

(** On the cube the scale attribute exists without a value, and neither a
    rotation nor a translation was authored. *)
Lemma cube_lacks_scale :
  lacks_value Demo.stage (UsdSceneItem.prim Demo.cube) "xformOp:scale" Demo.frame.
Proof.
  eexists. split; [vm_compute; reflexivity|].
  right. eexists. split; [vm_compute; reflexivity|reflexivity].
Defined.

Lemma cube_lacks_rotation :
  lacks_value Demo.stage (UsdSceneItem.prim Demo.cube) "xformOp:rotateXYZ" Demo.frame.
Proof.
  eexists. split; [vm_compute; reflexivity|].
  left. vm_compute. reflexivity.
Defined.

Lemma cube_lacks_translation :
  lacks_value Demo.stage (UsdSceneItem.prim Demo.cube) "xformOp:translate" Demo.frame.
Proof.
  eexists. split; [vm_compute; reflexivity|].
  left. vm_compute. reflexivity.
Defined.

Lemma bare_cube_lacks_pivot :
  lacks_value Demo.bare (UsdSceneItem.prim Demo.cube) "xformOp:translate:pivot" Demo.frame.
Proof.
  eexists. split; [vm_compute; reflexivity|].
  left. vm_compute. reflexivity.
Defined.

(** C3: the four accessors on the cube, the pivot before it was authored. *)
Lemma unauthored_reads_zero_on_cube :
  UsdTransform3d.fItem Demo.transform = Some Demo.cube /\
  (UsdTransform3d.scale (U := Demo.utils) Demo.transform Demo.stage = Ok (Ufe.mkVector3d 0 0 0) /\
   UsdTransform3d.scale (U := Demo.utils) Demo.transform Demo.stage <> Ok (Ufe.mkVector3d 1 1 1)) /\
  UsdTransform3d.rotation (U := Demo.utils) Demo.transform Demo.stage = Ok (Ufe.mkVector3d 0 0 0) /\
  UsdTransform3d.translation (U := Demo.utils) Demo.transform Demo.stage = Ok (Ufe.mkVector3d 0 0 0) /\
  UsdTransform3d.rotatePivot (U := Demo.utils) Demo.transform Demo.bare = Ok (Ufe.mkVector3d 0 0 0).
Proof.
  split; [reflexivity|].
  destruct (unauthored_reads_zero (U := Demo.utils) Demo.transform Demo.cube Demo.stage eq_refl)
    as (Hscale & Hrot & Htr & _).
  destruct (unauthored_reads_zero (U := Demo.utils) Demo.transform Demo.cube Demo.bare eq_refl)
    as (_ & _ & _ & Hpivot).
  split; [exact (Hscale cube_lacks_scale)|].
  split; [exact (Hrot cube_lacks_rotation)|].
  split; [exact (Htr cube_lacks_translation)|].
  exact (Hpivot bare_cube_lacks_pivot).
Defined.

(** C4: the cube is moved to (1.5, 2, 3) and read back. *)
Lemma translate_then_translation_on_cube :
  UsdTransform3d.fItem Demo.transform = Some Demo.cube /\
  is_Some (Demo.stage !! primPath (UsdSceneItem.prim Demo.cube)) /\
  exists stage',
    UsdTransform3d.translate (P := Demo.privateUtils) Demo.transform 1.5 2 3 Demo.stage = Ok stage' /\
    UsdTransform3d.translation (U := Demo.utils) Demo.transform stage' = Ok (Ufe.mkVector3d 1.5 2 3).
Proof.
  assert (Hprim : is_Some (Demo.stage !! primPath (UsdSceneItem.prim Demo.cube))).
  { eexists. vm_compute. reflexivity. }
  split; [reflexivity|]. split; [exact Hprim|].
  apply (translate_then_translation (U := Demo.utils) (P := Demo.privateUtils)
           Demo.transform Demo.cube Demo.stage 1.5 2 3).
  - intros prim path x y z stage. reflexivity.
  - reflexivity.
  - exact Hprim.
Defined.

(** X8: the two segment matrices of the cube over a cache that gives the
    proxy shape's transform for both. *)
Lemma segment_matrices_on_cube :
  UsdTransform3d.fItem Demo.transform = Some Demo.cube /\
  UsdTransform3d.segmentInclusiveMatrix (U := Demo.utils) (X := Demo.xformCache)
      Demo.transform Demo.stage
    = Ok (UsdTransform3d.convertFromUsd Demo.proxyToWorld) /\
  UsdTransform3d.segmentExclusiveMatrix (U := Demo.utils) (X := Demo.xformCache)
      Demo.transform Demo.stage
    = Ok (UsdTransform3d.convertFromUsd Demo.proxyToWorld) /\
  UsdTransform3d.segmentInclusiveMatrix (U := Demo.utils) (X := Demo.xformCache)
      Demo.transform Demo.stage
    = UsdTransform3d.segmentExclusiveMatrix (U := Demo.utils) (X := Demo.xformCache)
        Demo.transform Demo.stage.
Proof.
  split; [reflexivity|].
  destruct (segment_matrices (U := Demo.utils) (X := Demo.xformCache)
              Demo.transform Demo.cube Demo.stage eq_refl) as (Hin & Hex & Hiff).
  split; [exact Hin|]. split; [exact Hex|].
  apply Hiff. reflexivity.
Defined.

(** X2: the pivot of the cube, authored as the [float3] (0.5, 0.5, 0.5). *)
Lemma authored_values_are_read_on_cube :
  UsdTransform3d.fItem Demo.transform = Some Demo.cube /\
  Demo.stage !! primPath (UsdSceneItem.prim Demo.cube) = Some Demo.cubeAttrs /\
  UsdTransform3d.rotatePivot (U := Demo.utils) Demo.transform Demo.stage
    = Ok (Ufe.mkVector3d 0.5 0.5 0.5).
Proof.
  assert (Hs : Demo.stage !! primPath (UsdSceneItem.prim Demo.cube) = Some Demo.cubeAttrs).
  { vm_compute. reflexivity. }
  split; [reflexivity|]. split; [exact Hs|].
  destruct (authored_values_are_read (U := Demo.utils) Demo.transform Demo.cube Demo.stage
              Demo.cubeAttrs eq_refl Hs) as (_ & _ & _ & Hpivot).
  apply (Hpivot Demo.pivot (mkGfVec3f Demo.half Demo.half Demo.half)).
  - vm_compute. reflexivity.
  - reflexivity.
Defined.

(** ** A scene authored with the other precision

    The same prim with its translation authored as a [float3] and its scale
    as a [double3]. *)

Module OtherPrecision.

Definition cubeAttrs : gmap TfToken (AttributeData Z) :=
  {[ "xformOp:translate" :=
       (fun _ => Some (VtVec3f (mkGfVec3f Demo.half Demo.half Demo.half))) : AttributeData Z;
     "xformOp:scale" := (fun _ => Some (VtVec3d (mkGfVec3d 2 2 2))) : AttributeData Z ]}.

Definition stage : Stage Z := {[ "/cube" := cubeAttrs ]}.

End OtherPrecision.

(** X3: the factories on the object [create()] makes. *)
Lemma factories_without_item_on_default :
  UsdTransform3d.fItem UsdTransform3d.new = nullptr /\
  UsdTransform3d.translateCmd_xyz UsdTransform3d.new 1 2 3 = NullDeref /\
  UsdTransform3d.scaleCmd_void UsdTransform3d.new = NullDeref /\
  UsdTransform3d.rotatePivotTranslateCmd UsdTransform3d.new = NullDeref /\
  UsdTransform3d.scalePivotTranslateCmd UsdTransform3d.new
    = Throw "UsdTransform3d::scalePivotTranslateCmd() not implemented" /\
  UsdTransform3d.setMatrixCmd UsdTransform3d.new Demo.stale = Ok nullptr.
Proof.
  split; [reflexivity|].
  destruct (factories_without_item UsdTransform3d.new 1 2 3 Demo.stale Demo.stale eq_refl)
    as (Ht & _ & _ & _ & _ & Hs & Hr & Hsp & Hm & _).
  exact (conj Ht (conj Hs (conj Hr (conj Hsp Hm)))).
Defined.

(** X4: the translation authored as a [float3] and the scale authored as a
    [double3] both read as (0, 0, 0). *)
Lemma other_precision_reads_zero_on_cube :
  UsdTransform3d.fItem Demo.transform = Some Demo.cube /\
  OtherPrecision.stage !! primPath (UsdSceneItem.prim Demo.cube) = Some OtherPrecision.cubeAttrs /\
  UsdTransform3d.translation (U := Demo.utils) Demo.transform OtherPrecision.stage
    = Ok (Ufe.mkVector3d 0 0 0) /\
  UsdTransform3d.scale (U := Demo.utils) Demo.transform OtherPrecision.stage
    = Ok (Ufe.mkVector3d 0 0 0).
Proof.
  assert (Hs : OtherPrecision.stage !! primPath (UsdSceneItem.prim Demo.cube)
               = Some OtherPrecision.cubeAttrs).
  { vm_compute. reflexivity. }
  split; [reflexivity|]. split; [exact Hs|].
  destruct (other_precision_reads_zero (U := Demo.utils) Demo.transform Demo.cube
              OtherPrecision.stage OtherPrecision.cubeAttrs eq_refl Hs) as (Htr & _ & Hsc & _).
  split.
  - apply (Htr (mkGfVec3f Demo.half Demo.half Demo.half)). vm_compute. reflexivity.
  - apply (Hsc (mkGfVec3d 2 2 2)). vm_compute. reflexivity.
Defined.

(** X5: the cube before and after its scale and pivot attributes were
    created: its translation, rotation and scale read the same. *)
Lemma accessors_read_one_attribute_on_cube :
  UsdTransform3d.fItem Demo.transform = Some Demo.cube /\
  UsdTransform3d.translation (U := Demo.utils) Demo.transform Demo.bare
    = UsdTransform3d.translation (U := Demo.utils) Demo.transform Demo.stage /\
  UsdTransform3d.rotation (U := Demo.utils) Demo.transform Demo.bare
    = UsdTransform3d.rotation (U := Demo.utils) Demo.transform Demo.stage /\
  UsdTransform3d.scale (U := Demo.utils) Demo.transform Demo.bare
    = UsdTransform3d.scale (U := Demo.utils) Demo.transform Demo.stage.
Proof.
  split; [reflexivity|].
  assert (Hbare : Demo.bare !! primPath (UsdSceneItem.prim Demo.cube) = Some ∅).
  { vm_compute. reflexivity. }
  assert (Hstage : Demo.stage !! primPath (UsdSceneItem.prim Demo.cube) = Some Demo.cubeAttrs).
  { vm_compute. reflexivity. }
  destruct (accessors_read_one_attribute (U := Demo.utils) Demo.transform Demo.cube
              Demo.bare Demo.stage ∅ Demo.cubeAttrs eq_refl Hbare Hstage)
    as (Htr & Hrot & Hsc & _).
  split; [apply Htr; vm_compute; reflexivity|].
  split; [apply Hrot; vm_compute; reflexivity|].
  apply Hsc. vm_compute. reflexivity.
Defined.

(** X6: version 2021, which has the matrix members. *)
Lemma conditional_members_fit_2021 :
  is_Some (UsdTransform3d.def_setMatrixCmd (UsdTransform3d.translation_unit (U := Demo.utils) 2021)) /\
  is_Some (UsdTransform3d.def_rotation (UsdTransform3d.translation_unit (U := Demo.utils) 2021)) /\
  is_Some (UsdTransform3d.def_translateCmd_xyz (UsdTransform3d.translation_unit (U := Demo.utils) 2021)) /\
  UsdTransform3d.def_translateCmd_void (UsdTransform3d.translation_unit (U := Demo.utils) 2021) = None.
Proof.
  destruct (conditional_members_fit (U := Demo.utils) 2021)
    as (_ & _ & Hset & _ & Htr & _ & _ & Hall).
  assert (Hge : (2021 <= 2021)%Z) by (intros Hcmp; discriminate Hcmp).
  pose proof (proj2 Hset Hge) as Hm.
  destruct (Hall Hm) as (Hrot & _ & Hxyz & _).
  exact (conj Hm (conj Hrot (conj Hxyz (proj1 Htr Hxyz)))).
Defined.

(** X7: the accessors on the cube, whatever was authored on it. *)
Lemma accessors_return_on_cube :
  UsdTransform3d.fItem Demo.transform = Some Demo.cube /\
  is_Some (OtherPrecision.stage !! primPath (UsdSceneItem.prim Demo.cube)) /\
  (exists v, UsdTransform3d.translation (U := Demo.utils) Demo.transform OtherPrecision.stage = Ok v) /\
  (exists v, UsdTransform3d.rotatePivot (U := Demo.utils) Demo.transform OtherPrecision.stage = Ok v).
Proof.
  assert (Hprim : is_Some (OtherPrecision.stage !! primPath (UsdSceneItem.prim Demo.cube))).
  { eexists. vm_compute. reflexivity. }
  split; [reflexivity|]. split; [exact Hprim|].
  destruct (accessors_return_on_valid_item (U := Demo.utils) Demo.transform Demo.cube
              OtherPrecision.stage eq_refl Hprim) as (Htr & _ & _ & Hp & _).
  exact (conj Htr Hp).
Defined.



(** The product with the identity does not give every matrix back: below
    the infinite element the product has an element that is not a number,
    and the negative zero comes back as a positive zero. *)
Example identity_product_not_exact :
  plain_matrix LocalIdentity.unbounded = false /\
  elem (Get LocalIdentity.unbounded) 0 0 = 1 /\
  PrimFloat.is_nan (elem (Get (GfMatrix4d_mul GfMatrix4d_identity LocalIdentity.unbounded)) 0 0)
    = true /\
  Prim2SF (elem (Get LocalIdentity.unbounded) 0 2) = S754_zero true /\
  Prim2SF (elem (Get (GfMatrix4d_mul GfMatrix4d_identity LocalIdentity.unbounded)) 0 2)
    = S754_zero false.
Proof. repeat split; vm_compute; reflexivity. Qed.
